(** * md_convertor: Markdown to PDF / HTML conversion (main.py)

    A shallow embedding of the two operations of [main.py], [md2pdf] and
    [md2html], together with the part of the Python runtime they touch:
    text files opened with [open(path, "r"/"w", encoding="utf-8")], the
    UTF-8 codec, [print], and exceptions that propagate to the caller.

    The two conversion libraries ([markdown] and [markdown_pdf]) are not
    part of the repository; they are parameters of the development. *)

From Stdlib Require Import NArith Bool Ascii String.
From Stdlib Require Import Strings.Byte.
From stdpp Require Import gmap list fin_maps.

Local Open Scope N_scope.

(** ** Python values *)

(** A Python [str] is a sequence of Unicode code points. *)
Abbreviation str := (list N).

(** A Python [bytes] value, and the content of a file on disk. *)
Abbreviation bytes := (list byte).

(** ASCII literals of the source, as [str]. *)
Definition py (s : string) : str :=
  List.map N_of_ascii (list_ascii_of_string s).

(** The exceptions that can reach the caller.  [Raised cls] stands for an
    exception of class [cls] raised inside one of the two libraries. *)
Inductive exn : Type :=
  | FileNotFoundError
  | IsADirectoryError
  | PermissionError
  | UnicodeDecodeError
  | UnicodeEncodeError
  | Raised (cls : string).

(** ** The UTF-8 codec ([encoding="utf-8"], error handler [strict]) *)

Module Utf8.

Definition b8 (n : N) : byte :=
  match Byte.of_N n with
  | Some b => b
  | None => x00
  end.

(** A continuation byte [10xxxxxx]. *)
Definition is_cont (b : byte) : bool :=
  (0x80 <=? Byte.to_N b) && (Byte.to_N b <=? 0xBF).

Definition low6 (b : byte) : N := N.land (Byte.to_N b) 0x3F.

Definition is_surrogate (c : N) : bool := (0xD800 <=? c) && (c <=? 0xDFFF).

(** One code point to its 1 to 4 bytes; lone surrogates and values past
    U+10FFFF are refused. *)
Definition encode_cp (c : N) : option bytes :=
  if c <? 0x80 then Some [b8 c]
  else if c <? 0x800 then
    Some [b8 (N.lor 0xC0 (N.shiftr c 6));
          b8 (N.lor 0x80 (N.land c 0x3F))]
  else if c <? 0x10000 then
    if is_surrogate c then None
    else
      Some [b8 (N.lor 0xE0 (N.shiftr c 12));
            b8 (N.lor 0x80 (N.land (N.shiftr c 6) 0x3F));
            b8 (N.lor 0x80 (N.land c 0x3F))]
  else if c <? 0x110000 then
    Some [b8 (N.lor 0xF0 (N.shiftr c 18));
          b8 (N.lor 0x80 (N.land (N.shiftr c 12) 0x3F));
          b8 (N.lor 0x80 (N.land (N.shiftr c 6) 0x3F));
          b8 (N.lor 0x80 (N.land c 0x3F))]
  else None.

(** [s.encode("utf-8")]: [None] is [UnicodeEncodeError]. *)
Fixpoint encode (t : str) : option bytes :=
  match t with
  | [] => Some []
  | c :: t' =>
      match encode_cp c, encode t' with
      | Some b, Some bs => Some (b ++ bs)
      | _, _ => None
      end
  end.

(** [b.decode("utf-8")]: [None] is [UnicodeDecodeError].  Overlong forms,
    surrogates, values past U+10FFFF and truncated sequences are
    refused. *)
Fixpoint decode (bs : bytes) : option str :=
  match bs with
  | [] => Some []
  | b0 :: r0 =>
      let n0 := Byte.to_N b0 in
      if n0 <? 0x80 then cons n0 <$> decode r0
      else if n0 <? 0xC2 then None
      else if n0 <? 0xE0 then
        match r0 with
        | b1 :: r1 =>
            if is_cont b1
            then cons (N.lor (N.shiftl (N.land n0 0x1F) 6) (low6 b1))
                   <$> decode r1
            else None
        | _ => None
        end
      else if n0 <? 0xF0 then
        match r0 with
        | b1 :: b2 :: r2 =>
            let c := N.lor (N.shiftl (N.land n0 0x0F) 12)
                       (N.lor (N.shiftl (low6 b1) 6) (low6 b2)) in
            if is_cont b1 && is_cont b2 && (0x800 <=? c)
               && negb (is_surrogate c)
            then cons c <$> decode r2
            else None
        | _ => None
        end
      else if n0 <? 0xF5 then
        match r0 with
        | b1 :: b2 :: b3 :: r3 =>
            let c := N.lor (N.shiftl (N.land n0 0x07) 18)
                       (N.lor (N.shiftl (low6 b1) 12)
                          (N.lor (N.shiftl (low6 b2) 6) (low6 b3))) in
            if is_cont b1 && is_cont b2 && is_cont b3
               && (0x10000 <=? c) && (c <? 0x110000)
            then cons c <$> decode r3
            else None
        | _ => None
        end
      else None
  end.

End Utf8.

(** ** The world the program runs in *)

(** What a resolved path names on disk: a directory, or a regular file
    with its permission bits for this process and its content. *)
Inductive node : Type :=
  | Dir
  | File (readable writable : bool) (data : bytes).

(** [files] maps every resolved path that exists to its node; two
    spellings of one file are one key.  [create_err p] is the error [open(p, "w")] raises when [p] does not
    exist and cannot be created (missing or read-only parent directory),
    [None] when it can.  [stdout] is everything printed so far. *)
Record World : Type := mkWorld {
  files : gmap str node;
  create_err : str -> option exn;
  stdout : str
}.

Definition with_files (fs : gmap str node) (w : World) : World :=
  mkWorld fs (create_err w) (stdout w).

Definition with_stdout (out : str) (w : World) : World :=
  mkWorld (files w) (create_err w) out.

(** The bytes of the regular file at [p], if there is one. *)
Definition file_data (w : World) (p : str) : option bytes :=
  match files w !! p with
  | Some (File _ _ d) => Some d
  | _ => None
  end.

(** [open(p, "w")] would succeed. *)
Definition writable (w : World) (p : str) : bool :=
  match files w !! p with
  | Some Dir => false
  | Some (File _ wr _) => wr
  | None => match create_err w p with None => true | Some _ => false end
  end.

(** ** Computations that may raise: state and exception passing *)

Definition IO (A : Type) : Type := World -> (exn + A) * World.

Definition ret {A} (a : A) : IO A := fun w => (inr a, w).

Definition raise {A} (e : exn) : IO A := fun w => (inl e, w).

Definition bind {A B} (m : IO A) (k : A -> IO B) : IO B :=
  fun w =>
    match m w with
    | (inl e, w') => (inl e, w')
    | (inr a, w') => k a w'
    end.

(** The result of a call into a library that touches neither the disk
    nor the standard output. *)
Definition lift {A} (r : exn + A) : IO A := fun w => (r, w).

Declare Scope io_scope.
Delimit Scope io_scope with io.
Notation "x <- m ;; k" := (bind m (fun x => k))
  (at level 100, m at next level, right associativity) : io_scope.
Notation "m ;; k" := (bind m (fun _ => k))
  (at level 100, right associativity) : io_scope.
Local Open Scope io_scope.

(** ** Built-ins used by main.py *)

(** Text mode with [newline=None]: on reading, ["\r\n"] and a lone
    ["\r"] both become ["\n"]. *)
Fixpoint universal_newlines (t : str) : str :=
  match t with
  | [] => []
  | c :: t' =>
      if c =? 13 then
        10 :: match t' with
              | c' :: t'' =>
                  if c' =? 10 then universal_newlines t''
                  else universal_newlines t'
              | [] => []
              end
      else c :: universal_newlines t'
  end.

(** [open(p, "r")] followed by reading the raw bytes up to end of file. *)
Definition open_read (p : str) : IO bytes :=
  fun w =>
    match files w !! p with
    | None => (inl FileNotFoundError, w)
    | Some Dir => (inl IsADirectoryError, w)
    | Some (File r _ d) =>
        if r then (inr d, w) else (inl PermissionError, w)
    end.

(** [with open(p, "r", encoding="utf-8") as f: return f.read()] *)
Definition read_text (p : str) : IO str :=
  raw <- open_read p ;;
  match Utf8.decode raw with
  | Some t => ret (universal_newlines t)
  | None => raise UnicodeDecodeError
  end.

(** [open(p, "w")]: an existing file is truncated, a missing one is
    created empty. *)
Definition open_write (p : str) : IO unit :=
  fun w =>
    match files w !! p with
    | Some Dir => (inl IsADirectoryError, w)
    | Some (File r wr _) =>
        if wr then (inr tt, with_files (<[p := File r wr []]> (files w)) w)
        else (inl PermissionError, w)
    | None =>
        match create_err w p with
        | Some e => (inl e, w)
        | None => (inr tt, with_files (<[p := File true true []]> (files w)) w)
        end
    end.

Definition append_data (b : bytes) (n : node) : node :=
  match n with
  | Dir => Dir
  | File r wr d => File r wr (d ++ b)
  end.

(** Writing [b] through a handle on [p] obtained from [open_write]. *)
Definition write_handle (p : str) (b : bytes) : IO unit :=
  fun w => (inr tt, with_files (alter (append_data b) p (files w)) w).

(** [with open(p, "w", encoding="utf-8") as f: f.write(t)].  On a POSIX
    host ["\n"] is written as it is.  The text is encoded after the file
    has been opened, hence truncated. *)
Definition write_text (p : str) (t : str) : IO unit :=
  open_write p ;;
  match Utf8.encode t with
  | Some b => write_handle p b
  | None => raise UnicodeEncodeError
  end.

(** [print(s)] *)
Definition print (s : str) : IO unit :=
  fun w => (inr tt, with_stdout (stdout w ++ s ++ [10]) w).

(** ** The external libraries *)

(** Both functions start with an [import] of their library; the
    libraries are taken to be installed, so the import binds the names
    below and does nothing else. *)

(** [markdown_pdf.Section(text)], all other fields at their defaults.
    ([Section] alone is a vernacular keyword, hence the underscore.) *)
Record pdf_section : Type := Section_ { text : str }.

(** Modelled from the spec: the class [MarkdownPdf] belongs to the
    [markdown_pdf] package, which is not in the repository.  A section is
    "a logical grouping unit passed to the PDF rendering capability"; the
    object holds the sections added so far, in order. *)
Record pdf_doc : Type := mk_pdf_doc { sections : list pdf_section }.

(** [MarkdownPdf()] *)
Definition MarkdownPdf : pdf_doc := mk_pdf_doc [].

(** [pdf.add_section(s)]; the object is not shared, so the update in
    place is a new value. *)
Definition add_section (pdf : pdf_doc) (s : pdf_section) : pdf_doc :=
  mk_pdf_doc (sections pdf ++ [s]).

Section Converter.

(** [markdown.markdown]: Markdown text to HTML text, or an exception. *)
Variable markdown : str -> exn + str.

(** The rendering done by [markdown_pdf]: the sections of a document to
    the bytes of a PDF, or an exception.  Whether the package renders
    when a section is added or when the document is saved cannot be
    told apart from outside: nothing touches the disk in between. *)
Variable render_pdf : list pdf_section -> exn + bytes.

(** Modelled from the spec: [MarkdownPdf.save] belongs to the
    [markdown_pdf] package, which is not in the repository.  Following
    "writes the capability's output to outputPath, creating or
    overwriting the file", it renders the sections and stores the bytes
    at [file_name]. *)
Definition save (pdf : pdf_doc) (file_name : str) : IO unit :=
  b <- lift (render_pdf (sections pdf)) ;;
  open_write file_name ;;
  write_handle file_name b.

(** *** main.py *)

Definition md2pdf (md_file output_file : str) : IO unit :=
  md_content <- read_text md_file ;;
  let pdf_obj := MarkdownPdf in
  let pdf_obj := add_section pdf_obj (Section_ md_content) in
  save pdf_obj output_file ;;
  print (py "PDF generated successfully as " ++ output_file).

Definition md2html (md_file output_file : str) : IO unit :=
  markdown_text <- read_text md_file ;;
  html_output <- lift (markdown markdown_text) ;;
  write_text output_file html_output.

(** *** Where a run can fail

    The steps of each operation that can raise, in program order; the
    exception and the world are those of the failing step. *)

Inductive html_failure (md_file output_file : str) (w : World)
  : exn -> World -> Prop :=
  | html_read_fails e w1 :
      read_text md_file w = (inl e, w1) ->
      html_failure md_file output_file w e w1
  | html_transform_fails t w1 e :
      read_text md_file w = (inr t, w1) ->
      markdown t = inl e ->
      html_failure md_file output_file w e w1
  | html_write_fails t w1 h e w2 :
      read_text md_file w = (inr t, w1) ->
      markdown t = inr h ->
      write_text output_file h w1 = (inl e, w2) ->
      html_failure md_file output_file w e w2.

Inductive pdf_failure (md_file output_file : str) (w : World)
  : exn -> World -> Prop :=
  | pdf_read_fails e w1 :
      read_text md_file w = (inl e, w1) ->
      pdf_failure md_file output_file w e w1
  | pdf_save_fails t w1 e w2 :
      read_text md_file w = (inr t, w1) ->
      save (add_section MarkdownPdf (Section_ t)) output_file w1
        = (inl e, w2) ->
      pdf_failure md_file output_file w e w2.

(** *** The script

    The block under [if __name__ == "__main__":]; the call of [md2pdf]
    there is commented out. *)
Definition main : IO unit :=
  md2html (py "Snowflake_Backup_Recovery_Options.md")
    (py "Snowflake_Backup_Recovery_Options.html").

(** Executing main.py with [__name__] bound to [name]: the two [def]
    statements only bind names, then the guard decides. *)
Definition run_module (name : str) : IO unit :=
  if decide (name = py "__main__") then main else ret tt.

End Converter.

(** ** Vocabulary of the statements *)

(** The world after [b] has been stored at [p] through [open(p, "w")]:
    an existing file keeps its read permission, a new one is readable. *)
Definition store (p : str) (b : bytes) (w : World) : World :=
  with_files
    (<[p := File (match files w !! p with
                  | Some (File r _ _) => r
                  | _ => true
                  end) true b]> (files w)) w.

(** [needle] occurs in [hay] as a contiguous run. *)
Definition contains {A} (needle hay : list A) : Prop :=
  exists pre post, hay = pre ++ needle ++ post.

(** The file at [p] holds the UTF-8 encoding of [needle] somewhere. *)
Definition file_contains_text (w : World) (p : str) (needle : str) : Prop :=
  exists d nb,
    file_data w p = Some d /\ Utf8.encode needle = Some nb /\ contains nb d.

(** The document ["# Title\n\nBody text."]. *)
Definition minimal_document : str :=
  py "# Title" ++ [10; 10] ++ py "Body text.".

(** Modelled from the spec: the Markdown-to-HTML transformation is the
    [markdown] package, which is not in the repository.  The spec fixes
    its result on the minimal document: HTML text (so it has a UTF-8
    encoding) with an [<h1>] element wrapping [Title] and a [<p>] element
    wrapping [Body text.]. *)
Definition transforms_minimal_document (markdown : str -> exn + str) : Prop :=
  exists h,
    markdown minimal_document = inr h
    /\ is_Some (Utf8.encode h)
    /\ contains (py "<h1>Title</h1>") h
    /\ contains (py "<p>Body text.</p>") h.

(** Modelled from the spec: the Markdown-to-HTML transformation is the
    [markdown] package, which is not in the repository.  The
    transformation of the empty text is the empty text. *)
Definition transforms_empty_document (markdown : str -> exn + str) : Prop :=
  markdown [] = inr [].

(** ** Stand-ins for the closed examples

    Concrete instances of the two library parameters and a small disk, on
    which the statements below are run. *)

(** Agrees with [markdown.markdown] on the empty text, on the minimal
    document and on a one-line paragraph of plain words. *)
Definition sample_markdown (t : str) : exn + str :=
  if decide (t = []) then inr []
  else if decide (t = minimal_document)
       then inr (py "<h1>Title</h1>" ++ [10] ++ py "<p>Body text.</p>")
       else inr (py "<p>" ++ t ++ py "</p>").

(** A transformation that refuses every document. *)
Definition failing_markdown (t : str) : exn + str :=
  inl (Raised "ValueError").

(** A renderer whose output starts with the PDF signature. *)
Definition sample_render (secs : list pdf_section) : exn + bytes :=
  inr (Utf8.b8 <$> (py "%PDF-" ++ concat (text <$> secs))).

(** The minimal document as it lies on disk. *)
Definition minimal_bytes : bytes :=
  list_byte_of_string "# Title" ++ [x0a; x0a]
    ++ list_byte_of_string "Body text.".

(** A disk with the minimal document at [in.md], an empty file at
    [empty.md], a directory [out] and nothing else; any other path can be
    created. *)
Definition sample_world : World :=
  mkWorld
    (<[py "in.md" := File true true minimal_bytes]>
       (<[py "empty.md" := File true true []]>
          (<[py "out" := Dir]> ∅)))
    (fun _ => None)
    [].

(** The error [open(p, "w")] raises in [w], if any. *)
Definition open_write_error (w : World) (p : str) : option exn :=
  match files w !! p with
  | Some Dir => Some IsADirectoryError
  | Some (File _ wr _) => if wr then None else Some PermissionError
  | None => create_err w p
  end.

(** A text with every line feed written the Windows way, as ["\r\n"]. *)
Definition to_crlf (t : str) : str :=
  c ← t; if c =? 10 then [13; 10] else [c].

(** ** Exhaustive checks of the codec

    [all_below k p P] tests [P] on the [2 ^ k] numbers whose binary
    writing is that of [p] followed by [k] more bits. *)
Fixpoint all_below (k : nat) (p : N) (P : N -> bool) : bool :=
  match k with
  | O => P p
  | S k' => all_below k' (2 * p) P && all_below k' (2 * p + 1) P
  end.

(** A code point that has an encoding decodes back to itself. *)
Definition cp_roundtrip (c : N) : bool :=
  match Utf8.encode_cp c with
  | Some b => bool_decide (Utf8.decode b = Some [c])
  | None => true
  end.

(** The first three bytes of a four-byte sequence, as a function of the
    code point without its low six bits. *)
Definition astral_head_ok (h : N) : bool :=
  if (0x400 <=? h) && (h <? 0x4400) then
    let b0 := Utf8.b8 (N.lor 0xF0 (N.shiftr h 12)) in
    let b1 := Utf8.b8 (N.lor 0x80 (N.land (N.shiftr h 6) 0x3F)) in
    let b2 := Utf8.b8 (N.lor 0x80 (N.land h 0x3F)) in
    (0xF0 <=? Byte.to_N b0) && (Byte.to_N b0 <? 0xF5)
    && Utf8.is_cont b1 && Utf8.is_cont b2
    && (N.lor (N.shiftl (N.land (Byte.to_N b0) 0x07) 12)
          (N.lor (N.shiftl (Utf8.low6 b1) 6) (Utf8.low6 b2)) =? h)
  else true.

(** The last byte of a multi-byte sequence, as a function of the low six
    bits. *)
Definition astral_tail_ok (l : N) : bool :=
  let b3 := Utf8.b8 (N.lor 0x80 l) in
  Utf8.is_cont b3 && (Utf8.low6 b3 =? l).

(** ** More stand-ins *)


(** A transformation that refuses any text with a carriage return and
    otherwise is [sample_markdown]. *)
Definition cr_averse_markdown (t : str) : exn + str :=
  if decide (13 ∈ t) then inl (Raised "ValueError") else sample_markdown t.

(** A renderer that refuses anything but a single section free of
    carriage returns and otherwise is [sample_render]. *)
Definition one_section_render (secs : list pdf_section) : exn + bytes :=
  match secs with
  | [s] => if decide (13 ∈ text s) then inl (Raised "ValueError")
           else sample_render secs
  | _ => inl (Raised "ValueError")
  end.

(** The minimal document saved with Windows line ends. *)
Definition crlf_bytes : bytes :=
  list_byte_of_string "# Title" ++ [x0d; x0a; x0d; x0a]
    ++ list_byte_of_string "Body text.".

(** A disk for the edge cases: the minimal document with Windows line
    ends at [win.md] and under the name the script uses, a file that is
    not UTF-8 at [bad.md], an unreadable file at [locked.md], a read-only
    file at [readonly.html], a directory [dir]; nothing can be created
    under the missing directory [missing]. *)
Definition edge_world : World :=
  mkWorld
    (<[py "win.md" := File true true crlf_bytes]>
       (<[py "bad.md" := File true true [xff; xfe]]>
          (<[py "locked.md" := File false true minimal_bytes]>
             (<[py "readonly.html" := File true false [x3c]]>
                (<[py "dir" := Dir]>
                   (<[py "Snowflake_Backup_Recovery_Options.md"
                      := File true true crlf_bytes]> ∅))))))
    (fun p => if decide (p = py "missing/out.html")
              then Some FileNotFoundError else None)
    [].

(** * Properties *)

(** ** The codec on samples *)

Example utf8_encode_samples :
  Utf8.encode [0x41; 0xE9; 0x20AC; 0x1F600]
  = Some [x41; xc3; xa9; xe2; x82; xac; xf0; x9f; x98; x80].
Proof. reflexivity. Qed.

Example utf8_decode_samples :
  Utf8.decode [x41; xc3; xa9; xe2; x82; xac; xf0; x9f; x98; x80]
  = Some [0x41; 0xE9; 0x20AC; 0x1F600].
Proof. reflexivity. Qed.

Example utf8_decode_rejects :
  Utf8.decode [xc0; x80] = None /\ Utf8.decode [xed; xa0; x80] = None
  /\ Utf8.decode [xe2; x82] = None /\ Utf8.decode [xff] = None
  /\ Utf8.encode [0xD800] = None.
Proof. repeat split; reflexivity. Qed.

Lemma utf8_encode_app (a b : str) :
  Utf8.encode (a ++ b)
  = match Utf8.encode a, Utf8.encode b with
    | Some x, Some y => Some (x ++ y)
    | _, _ => None
    end.
Proof.
  induction a as [|c a IH]; simpl.
  - by destruct (Utf8.encode b).
  - rewrite IH. destruct (Utf8.encode_cp c) as [x|]; [|done].
    destruct (Utf8.encode a) as [xs|], (Utf8.encode b) as [ys|]; try done.
    by rewrite app_assoc.
Qed.

Lemma utf8_encode_contains (needle hay : str) (b : bytes) :
  contains needle hay -> Utf8.encode hay = Some b ->
  exists nb, Utf8.encode needle = Some nb /\ contains nb b.
Proof.
  intros (pre & post & ->). rewrite !utf8_encode_app.
  destruct (Utf8.encode pre) as [x|]; [|done].
  destruct (Utf8.encode needle) as [y|]; [|done].
  destruct (Utf8.encode post) as [z|]; [|done].
  intros [= <-]. exists y. split; [done|]. by exists x, z.
Qed.

(** ** The built-ins *)

Lemma store_files_other p q b w :
  p <> q -> files (store p b w) !! q = files w !! q.
Proof. intros Hpq. unfold store; simpl. by rewrite lookup_insert_ne. Qed.

Lemma store_lookup p b w :
  exists r, files (store p b w) !! p = Some (File r true b).
Proof. unfold store; simpl. rewrite lookup_insert_eq. eauto. Qed.

Lemma file_data_store p b w : file_data (store p b w) p = Some b.
Proof.
  unfold file_data. by destruct (store_lookup p b w) as [r ->].
Qed.

Lemma writable_store p b w : writable (store p b w) p = true.
Proof. unfold writable. by destruct (store_lookup p b w) as [r ->]. Qed.


Lemma store_store p b b' w : store p b (store p b' w) = store p b w.
Proof.
  unfold store, with_files; simpl.
  rewrite lookup_insert_eq, insert_insert_eq. done.
Qed.

Lemma read_text_world p w r w' : read_text p w = (r, w') -> w' = w.
Proof.
  unfold read_text, bind, open_read.
  destruct (files w !! p) as [[|rd wr raw]|]; [congruence| |congruence].
  destruct rd; [|congruence].
  unfold ret, raise. destruct (Utf8.decode raw); congruence.
Qed.

Lemma read_text_ok p w wr raw t :
  files w !! p = Some (File true wr raw) ->
  Utf8.decode raw = Some t ->
  read_text p w = (inr (universal_newlines t), w).
Proof.
  intros Hf Hd. unfold read_text, bind, open_read. by rewrite Hf, Hd.
Qed.

Lemma read_text_inr_inv p w t w' :
  read_text p w = (inr t, w') ->
  exists wr raw t0,
    files w !! p = Some (File true wr raw)
    /\ Utf8.decode raw = Some t0
    /\ t = universal_newlines t0 /\ w' = w.
Proof.
  unfold read_text, bind, open_read.
  destruct (files w !! p) as [[|rd wr raw]|]; [congruence| |congruence].
  destruct rd; [|congruence].
  unfold ret, raise. destruct (Utf8.decode raw) as [t0|] eqn:Hd; [|congruence].
  intros [= <- <-]. by exists wr, raw, t0.
Qed.

Lemma read_text_missing p w :
  files w !! p = None -> read_text p w = (inl FileNotFoundError, w).
Proof. intros Hf. unfold read_text, bind, open_read. by rewrite Hf. Qed.

Lemma open_write_ok p w :
  writable w p = true -> open_write p w = (inr tt, store p [] w).
Proof.
  unfold writable, open_write, store.
  destruct (files w !! p) as [[|rd wr raw]|]; [done| |].
  - by intros ->.
  - by destruct (create_err w p).
Qed.

Lemma open_write_inl_inv p w e w' :
  open_write p w = (inl e, w') -> w' = w /\ writable w p = false.
Proof.
  unfold writable, open_write.
  destruct (files w !! p) as [[|rd wr raw]|].
  - by intros [= <- <-].
  - destruct wr; [done|]. by intros [= <- <-].
  - destruct (create_err w p); [|done]. by intros [= <- <-].
Qed.

Lemma open_write_inr_inv p w u w' :
  open_write p w = (inr u, w') -> writable w p = true /\ w' = store p [] w.
Proof.
  intros H. destruct (writable w p) eqn:Hw.
  - rewrite (open_write_ok _ _ Hw) in H. by injection H as _ <-.
  - unfold writable, open_write in *.
    destruct (files w !! p) as [[|rd wr raw]|]; [done| |].
    + by subst wr.
    + by destruct (create_err w p).
Qed.

Lemma write_handle_store p b w :
  write_handle p b (store p [] w) = (inr tt, store p b w).
Proof.
  unfold write_handle, store, with_files; simpl.
  by rewrite alter_insert_eq.
Qed.

Lemma write_text_ok p t b w :
  writable w p = true -> Utf8.encode t = Some b ->
  write_text p t w = (inr tt, store p b w).
Proof.
  intros Hw He. unfold write_text, bind.
  rewrite (open_write_ok _ _ Hw), He. apply write_handle_store.
Qed.

Lemma write_text_inr_inv p t u w w' :
  write_text p t w = (inr u, w') ->
  exists b, writable w p = true /\ Utf8.encode t = Some b /\ w' = store p b w.
Proof.
  unfold write_text, bind.
  destruct (open_write p w) as [[e|[]] w1] eqn:Ho; [done|].
  apply open_write_inr_inv in Ho as [Hw ->].
  destruct (Utf8.encode t) as [b|]; [|done].
  rewrite write_handle_store. intros [= <-]. by exists b.
Qed.

(** A failed [write_text] leaves every other path alone, and the target
    either untouched or truncated. *)
Lemma write_text_inl_inv p t e w w' :
  write_text p t w = (inl e, w') ->
  (w' = w /\ writable w p = false)
  \/ (w' = store p [] w /\ writable w p = true
      /\ Utf8.encode t = None /\ e = UnicodeEncodeError).
Proof.
  unfold write_text, bind.
  destruct (open_write p w) as [[e'|[]] w1] eqn:Ho.
  - intros [= <- <-]. left. by apply open_write_inl_inv in Ho.
  - apply open_write_inr_inv in Ho as [Hw ->].
    destruct (Utf8.encode t) as [b|] eqn:He.
    + by rewrite write_handle_store.
    + intros [= <- <-]. by right.
Qed.

(** ** The two operations, step by step *)

Section ConverterFacts.

Variable markdown : str -> exn + str.
Variable render_pdf : list pdf_section -> exn + bytes.

Lemma md2html_unfold md_file output_file w :
  md2html markdown md_file output_file w
  = match read_text md_file w with
    | (inl e, w1) => (inl e, w1)
    | (inr t, w1) =>
        match markdown t with
        | inl e => (inl e, w1)
        | inr h => write_text output_file h w1
        end
    end.
Proof.
  unfold md2html, bind, lift.
  destruct (read_text md_file w) as [[e|t] w1]; [done|].
  by destruct (markdown t).
Qed.

Lemma save_unfold pdf file_name w :
  save render_pdf pdf file_name w
  = match render_pdf (sections pdf) with
    | inl e => (inl e, w)
    | inr b =>
        match open_write file_name w with
        | (inl e, w1) => (inl e, w1)
        | (inr _, w1) => write_handle file_name b w1
        end
    end.
Proof.
  unfold save, bind, lift. destruct (render_pdf (sections pdf)); [done|].
  by destruct (open_write file_name w) as [[e|[]] w1].
Qed.

Lemma md2pdf_unfold md_file output_file w :
  md2pdf render_pdf md_file output_file w
  = match read_text md_file w with
    | (inl e, w1) => (inl e, w1)
    | (inr t, w1) =>
        match save render_pdf (mk_pdf_doc [Section_ t]) output_file w1 with
        | (inl e, w2) => (inl e, w2)
        | (inr _, w2) =>
            print (py "PDF generated successfully as " ++ output_file) w2
        end
    end.
Proof.
  unfold md2pdf, bind.
  by destruct (read_text md_file w) as [[e|t] w1].
Qed.

Lemma save_ok pdf file_name b w :
  render_pdf (sections pdf) = inr b ->
  writable w file_name = true ->
  save render_pdf pdf file_name w = (inr tt, store file_name b w).
Proof.
  intros Hr Hw. rewrite save_unfold, Hr, (open_write_ok _ _ Hw).
  apply write_handle_store.
Qed.

Lemma save_inr_inv pdf file_name u w w' :
  save render_pdf pdf file_name w = (inr u, w') ->
  exists b, render_pdf (sections pdf) = inr b
            /\ writable w file_name = true /\ w' = store file_name b w.
Proof.
  rewrite save_unfold. destruct (render_pdf (sections pdf)) as [e|b]; [done|].
  destruct (open_write file_name w) as [[e|[]] w1] eqn:Ho; [done|].
  apply open_write_inr_inv in Ho as [Hw ->].
  rewrite write_handle_store. intros [= <-]. by exists b.
Qed.

Lemma save_inl_inv pdf file_name e w w' :
  save render_pdf pdf file_name w = (inl e, w') -> w' = w.
Proof.
  rewrite save_unfold. destruct (render_pdf (sections pdf)) as [e'|b].
  - by intros [= _ <-].
  - destruct (open_write file_name w) as [[e'|[]] w1] eqn:Ho.
    + intros [= _ <-]. by apply open_write_inl_inv in Ho as [-> _].
    + apply open_write_inr_inv in Ho as [Hw ->].
      by rewrite write_handle_store.
Qed.

(** A successful [md2html], forwards and backwards. *)
Lemma md2html_ok md_file output_file w wr raw t h b :
  files w !! md_file = Some (File true wr raw) ->
  Utf8.decode raw = Some t ->
  markdown (universal_newlines t) = inr h ->
  Utf8.encode h = Some b ->
  writable w output_file = true ->
  md2html markdown md_file output_file w = (inr tt, store output_file b w).
Proof.
  intros Hf Hd Hm He Hw.
  rewrite md2html_unfold, (read_text_ok _ _ _ _ _ Hf Hd), Hm.
  by apply write_text_ok.
Qed.

Lemma md2html_inr_inv md_file output_file u w w' :
  md2html markdown md_file output_file w = (inr u, w') ->
  exists wr raw t h b,
    files w !! md_file = Some (File true wr raw)
    /\ Utf8.decode raw = Some t
    /\ markdown (universal_newlines t) = inr h
    /\ Utf8.encode h = Some b
    /\ writable w output_file = true
    /\ w' = store output_file b w.
Proof.
  rewrite md2html_unfold.
  destruct (read_text md_file w) as [[e|t] w1] eqn:Hr; [done|].
  apply read_text_inr_inv in Hr as (wr & raw & t0 & Hf & Hd & -> & ->).
  destruct (markdown (universal_newlines t0)) as [e|h] eqn:Hm; [done|].
  intros (b & Hw & He & ->)%write_text_inr_inv.
  by exists wr, raw, t0, h, b.
Qed.

(** A successful [md2pdf], forwards and backwards. *)
Lemma md2pdf_ok md_file output_file w wr raw t b :
  files w !! md_file = Some (File true wr raw) ->
  Utf8.decode raw = Some t ->
  render_pdf [Section_ (universal_newlines t)] = inr b ->
  writable w output_file = true ->
  md2pdf render_pdf md_file output_file w
  = (inr tt,
     with_stdout
       (stdout w ++ (py "PDF generated successfully as " ++ output_file)
          ++ [10])
       (store output_file b w)).
Proof.
  intros Hf Hd Hr Hw.
  rewrite md2pdf_unfold, (read_text_ok _ _ _ _ _ Hf Hd).
  by rewrite (save_ok (mk_pdf_doc [Section_ (universal_newlines t)]) _ b _ Hr Hw).
Qed.

Lemma md2pdf_inr_inv md_file output_file u w w' :
  md2pdf render_pdf md_file output_file w = (inr u, w') ->
  exists wr raw t b,
    files w !! md_file = Some (File true wr raw)
    /\ Utf8.decode raw = Some t
    /\ render_pdf [Section_ (universal_newlines t)] = inr b
    /\ writable w output_file = true
    /\ w' = with_stdout
              (stdout w
                 ++ (py "PDF generated successfully as " ++ output_file)
                 ++ [10])
              (store output_file b w).
Proof.
  rewrite md2pdf_unfold.
  destruct (read_text md_file w) as [[e|t] w1] eqn:Hr; [done|].
  apply read_text_inr_inv in Hr as (wr & raw & t0 & Hf & Hd & -> & ->).
  destruct (save render_pdf _ output_file w) as [[e|[]] w2] eqn:Hs; [done|].
  apply save_inr_inv in Hs as (b & Hb & Hw & ->).
  intros [= <-]. by exists wr, raw, t0, b.
Qed.

(** Whatever the outcome, only [output_file] can change on disk. *)
Lemma md2html_frame md_file output_file w r w' q :
  md2html markdown md_file output_file w = (r, w') ->
  q <> output_file ->
  files w' !! q = files w !! q.
Proof.
  intros Hrun Hq. destruct r as [e|u].
  - rewrite md2html_unfold in Hrun.
    destruct (read_text md_file w) as [[e1|t] w1] eqn:Hr;
      apply read_text_world in Hr as ->; [by injection Hrun as _ <-|].
    destruct (markdown t) as [e1|h]; [by injection Hrun as _ <-|].
    apply write_text_inl_inv in Hrun as [[-> _]|(-> & _)]; [done|].
    by apply store_files_other.
  - apply md2html_inr_inv in Hrun as (?&?&?&?&b&_&_&_&_&_&->).
    by apply store_files_other.
Qed.

Lemma md2pdf_frame md_file output_file w r w' q :
  md2pdf render_pdf md_file output_file w = (r, w') ->
  q <> output_file ->
  files w' !! q = files w !! q.
Proof.
  intros Hrun Hq. destruct r as [e|u].
  - rewrite md2pdf_unfold in Hrun.
    destruct (read_text md_file w) as [[e1|t] w1] eqn:Hr;
      apply read_text_world in Hr as ->; [by injection Hrun as _ <-|].
    destruct (save render_pdf _ output_file w) as [[e1|[]] w2] eqn:Hs;
      [|done].
    apply save_inl_inv in Hs as ->. by injection Hrun as _ <-.
  - apply md2pdf_inr_inv in Hrun as (?&?&?&b&_&_&_&_&->).
    simpl. by apply store_files_other.
Qed.

(** Running [md2html] again on what a successful run left behind, with
    the input file as it was. *)
Lemma md2html_rerun md_file output_file w w1 :
  md2html markdown md_file output_file w = (inr tt, w1) ->
  files w1 !! md_file = files w !! md_file ->
  md2html markdown md_file output_file w1 = (inr tt, w1).
Proof.
  intros (wr & raw & t & h & b & Hf & Hd & Hm & He & Hw & ->)%md2html_inr_inv
         Hsame.
  rewrite <- Hsame in Hf.
  rewrite (md2html_ok _ _ _ _ _ _ _ _ Hf Hd Hm He (writable_store _ _ _)).
  by rewrite store_store.
Qed.

(** With distinct paths the input file is as it was after a successful
    run, so a second run repeats the first. *)
Lemma md2html_twice_distinct_paths md_file output_file w w1 :
  md_file <> output_file ->
  md2html markdown md_file output_file w = (inr tt, w1) ->
  md2html markdown md_file output_file w1 = (inr tt, w1).
Proof.
  intros Hne Hrun. apply (md2html_rerun _ _ w); [done|].
  by apply (md2html_frame _ _ _ _ _ _ Hrun).
Qed.

(** [md2html] touches the world only once the transformation has
    returned a result. *)
Lemma md2html_changes_after_transformation md_file output_file w r w' :
  md2html markdown md_file output_file w = (r, w') ->
  w' <> w ->
  exists t h, read_text md_file w = (inr t, w) /\ markdown t = inr h.
Proof.
  rewrite md2html_unfold.
  destruct (read_text md_file w) as [[e|t] w1] eqn:Hr;
    pose proof (read_text_world _ _ _ _ Hr) as ->.
  { by intros [= _ <-]. }
  destruct (markdown t) as [e|h] eqn:Hm.
  { by intros [= _ <-]. }
  intros _ _. by exists t, h.
Qed.

(** ** The specification, claim by claim *)

(** C1: for an existing, readable, UTF-8 encoded input file, [md2pdf]
    reads the whole file as one document, puts that document in exactly
    one section of a fresh PDF object and saves it: the run is the
    saving of the one-section object followed by the success message,
    and when the renderer returns bytes for that single section and the
    output path can be opened for writing, the run succeeds and the
    file at the output path, new or overwritten, holds exactly those
    bytes. *)
Theorem md2pdf_single_section md_file output_file w wr raw t :
  files w !! md_file = Some (File true wr raw) ->
  Utf8.decode raw = Some t ->
  md2pdf render_pdf md_file output_file w
  = (save render_pdf (mk_pdf_doc [Section_ (universal_newlines t)])
       output_file ;;
     print (py "PDF generated successfully as " ++ output_file)) w
  /\ forall b,
      render_pdf [Section_ (universal_newlines t)] = inr b ->
      writable w output_file = true ->
      exists w',
        md2pdf render_pdf md_file output_file w = (inr tt, w')
        /\ file_data w' output_file = Some b.
Proof.
  intros Hf Hd. split.
  - unfold md2pdf, bind at 1. by rewrite (read_text_ok _ _ _ _ _ Hf Hd).
  - intros b Hr Hw. eexists. split.
    + by apply (md2pdf_ok _ _ _ _ _ _ _ Hf Hd Hr Hw).
    + apply (file_data_store output_file b w).
Qed.

(** C2: for a valid UTF-8 input file, the file a successful [md2html]
    leaves at the output path is exactly the UTF-8 encoding of what the
    Markdown-to-HTML transformation returned for the input text; nothing
    is put around it. *)
Theorem md2html_writes_transformation md_file output_file w wr raw t w' :
  files w !! md_file = Some (File true wr raw) ->
  Utf8.decode raw = Some t ->
  md2html markdown md_file output_file w = (inr tt, w') ->
  exists h b,
    markdown (universal_newlines t) = inr h
    /\ Utf8.encode h = Some b
    /\ file_data w' output_file = Some b.
Proof.
  intros Hf Hd (wr' & raw' & t' & h & b & Hf' & Hd' & Hm & He & _ & ->)
    %md2html_inr_inv.
  rewrite Hf in Hf'. injection Hf' as <- <-.
  rewrite Hd in Hd'. injection Hd' as <-.
  exists h, b. by rewrite file_data_store.
Qed.

(** C3: when the input path does not exist, [md2pdf] and [md2html] both
    raise [FileNotFoundError] and leave the world, hence whatever is or
    is not at the output path, as it was. *)
Theorem missing_input_FileNotFoundError md_file output_file w :
  files w !! md_file = None ->
  md2pdf render_pdf md_file output_file w = (inl FileNotFoundError, w)
  /\ md2html markdown md_file output_file w = (inl FileNotFoundError, w).
Proof.
  intros Hf. split.
  - by rewrite md2pdf_unfold, (read_text_missing _ _ Hf).
  - by rewrite md2html_unfold, (read_text_missing _ _ Hf).
Qed.

(** C4: [md2html] is idempotent: when a run succeeds and the input file
    holds the same content before the second run as before the first,
    the second run succeeds too and the output file holds the same bytes
    after both runs. *)
Theorem md2html_idempotent md_file output_file w w1 :
  md2html markdown md_file output_file w = (inr tt, w1) ->
  files w1 !! md_file = files w !! md_file ->
  exists w2 b,
    md2html markdown md_file output_file w1 = (inr tt, w2)
    /\ file_data w1 output_file = Some b
    /\ file_data w2 output_file = Some b.
Proof.
  intros Hrun Hsame.
  pose proof (md2html_rerun _ _ _ _ Hrun Hsame) as Hagain.
  apply md2html_inr_inv in Hrun as (?&?&?&?& b &_&_&_&_&_& ->).
  exists (store output_file b w), b.
  by rewrite file_data_store.
Qed.

(** C5: neither operation catches anything: a run ends with exception
    [e] in world [w'] exactly when one of its steps (reading the input,
    the library call, writing the output) raised [e] and left [w']; the
    exception reaches the caller as it was raised. *)
Theorem errors_propagate_unchanged md_file output_file w e w' :
  (html_failure markdown md_file output_file w e w'
   <-> md2html markdown md_file output_file w = (inl e, w'))
  /\ (pdf_failure render_pdf md_file output_file w e w'
      <-> md2pdf render_pdf md_file output_file w = (inl e, w')).
Proof.
  split; split.
  - rewrite md2html_unfold.
    intros [e1 w1 Hr|t w1 e1 Hr Hm|t w1 h e1 w2 Hr Hm Hw]; rewrite Hr;
      [done| |]; by rewrite Hm.
  - rewrite md2html_unfold.
    destruct (read_text md_file w) as [[e1|t] w1] eqn:Hr.
    { intros [= <- <-]. by apply html_read_fails. }
    destruct (markdown t) as [e1|h] eqn:Hm.
    { intros [= <- <-]. by eapply html_transform_fails. }
    intros Hw. by eapply html_write_fails.
  - rewrite md2pdf_unfold.
    intros [e1 w1 Hr|t w1 e1 w2 Hr Hs]; rewrite Hr; [done|].
    unfold add_section in Hs; simpl in Hs. by rewrite Hs.
  - rewrite md2pdf_unfold.
    destruct (read_text md_file w) as [[e1|t] w1] eqn:Hr.
    { intros [= <- <-]. by apply pdf_read_fails. }
    destruct (save render_pdf _ output_file w1) as [[e1|[]] w2] eqn:Hs;
      [|done].
    intros [= <- <-]. by eapply pdf_save_fails.
Qed.

(** C6: a successful [md2pdf] has printed one line, the confirmation
    message ending in the output path; [md2html] prints nothing,
    whatever its outcome. *)
Theorem success_message md_file output_file w :
  (forall w',
      md2pdf render_pdf md_file output_file w = (inr tt, w') ->
      stdout w'
      = stdout w ++ py "PDF generated successfully as " ++ output_file
          ++ [10])
  /\ (forall r w',
        md2html markdown md_file output_file w = (r, w') ->
        stdout w' = stdout w).
Proof.
  split.
  - intros w' (?&?&?& b &_&_&_&_& ->)%md2pdf_inr_inv.
    cbn [stdout with_stdout]. by rewrite <- app_assoc.
  - intros [e|u] w' Hrun.
    + rewrite md2html_unfold in Hrun.
      destruct (read_text md_file w) as [[e1|t] w1] eqn:Hr;
        apply read_text_world in Hr as ->; [by injection Hrun as _ <-|].
      destruct (markdown t) as [e1|h]; [by injection Hrun as _ <-|].
      by apply write_text_inl_inv in Hrun as [[-> _]|(-> & _)].
    + by apply md2html_inr_inv in Hrun as (?&?&?&?& b &_&_&_&_&_& ->).
Qed.

(** C7: on an input file holding ["# Title\n\nBody text."], with a
    transformation that meets the spec on that document and an output
    path that can be opened, [md2html] succeeds and the output file
    contains [<h1>Title</h1>] and [<p>Body text.</p>]. *)
Theorem md2html_minimal_document md_file output_file w wr raw :
  transforms_minimal_document markdown ->
  files w !! md_file = Some (File true wr raw) ->
  Utf8.decode raw = Some minimal_document ->
  writable w output_file = true ->
  exists w',
    md2html markdown md_file output_file w = (inr tt, w')
    /\ file_contains_text w' output_file (py "<h1>Title</h1>")
    /\ file_contains_text w' output_file (py "<p>Body text.</p>").
Proof.
  intros (h & Hm & [b He] & Hh1 & Hp) Hf Hd Hw.
  exists (store output_file b w). split.
  - by apply (md2html_ok _ _ _ _ _ _ h b Hf Hd).
  - unfold file_contains_text. rewrite file_data_store.
    destruct (utf8_encode_contains _ _ _ Hh1 He) as (n1 & ? & ?).
    destruct (utf8_encode_contains _ _ _ Hp He) as (n2 & ? & ?).
    split; [by exists b, n1 | by exists b, n2].
Qed.

(** C8: in [md2html] the output file is opened only after the
    transformation has returned: when the transformation raises [e],
    the run ends with [e] in the very world it started from, so the
    output path is neither created nor truncated. *)
Theorem md2html_failed_transformation md_file output_file w wr raw t e :
  files w !! md_file = Some (File true wr raw) ->
  Utf8.decode raw = Some t ->
  markdown (universal_newlines t) = inl e ->
  md2html markdown md_file output_file w = (inl e, w).
Proof.
  intros Hf Hd Hm.
  by rewrite md2html_unfold, (read_text_ok _ _ _ _ _ Hf Hd), Hm.
Qed.

(** C9, amended: when the output path names another file than the input
    path, the input file is the same after any run of [md2pdf] or
    [md2html], successful or failed. *)
Theorem input_file_unchanged md_file output_file w :
  md_file <> output_file ->
  (forall r w',
      md2pdf render_pdf md_file output_file w = (r, w') ->
      files w' !! md_file = files w !! md_file)
  /\ (forall r w',
        md2html markdown md_file output_file w = (r, w') ->
        files w' !! md_file = files w !! md_file).
Proof.
  intros Hne. split; intros r w' Hrun.
  - by apply (md2pdf_frame _ _ _ _ _ _ Hrun).
  - by apply (md2html_frame _ _ _ _ _ _ Hrun).
Qed.

(** C10: on an existing, readable, empty input file, with a
    transformation that maps the empty text to the empty text and an
    output path that can be opened, [md2html] succeeds and the output
    file is empty. *)
Theorem md2html_empty_input md_file output_file w wr :
  transforms_empty_document markdown ->
  files w !! md_file = Some (File true wr []) ->
  writable w output_file = true ->
  exists w',
    md2html markdown md_file output_file w = (inr tt, w')
    /\ file_data w' output_file = Some [].
Proof.
  intros Hm Hf Hw. exists (store output_file [] w). split.
  - by apply (md2html_ok _ _ _ _ [] [] [] [] Hf).
  - apply file_data_store.
Qed.

End ConverterFacts.

(** ** The statements at work on the sample disk *)

Lemma md2pdf_single_section_witness :
  files sample_world !! py "in.md" = Some (File true true minimal_bytes)
  /\ Utf8.decode minimal_bytes = Some minimal_document
  /\ exists w',
      md2pdf sample_render (py "in.md") (py "out.pdf") sample_world
      = (inr tt, w')
      /\ file_data w' (py "out.pdf")
         = Some (list_byte_of_string "%PDF-" ++ minimal_bytes).
Proof.
  split; [vm_compute; reflexivity|]. split; [vm_compute; reflexivity|].
  destruct (md2pdf_single_section sample_render (py "in.md") (py "out.pdf")
              sample_world true minimal_bytes minimal_document)
    as [_ Hrun]; [vm_compute; reflexivity | vm_compute; reflexivity |].
  apply Hrun; vm_compute; reflexivity.
Defined.

Lemma md2html_writes_transformation_witness :
  exists w',
    md2html sample_markdown (py "in.md") (py "out.html") sample_world
    = (inr tt, w')
    /\ exists h b,
        sample_markdown (universal_newlines minimal_document) = inr h
        /\ Utf8.encode h = Some b
        /\ file_data w' (py "out.html") = Some b.
Proof.
  exists (snd (md2html sample_markdown (py "in.md") (py "out.html")
                 sample_world)).
  split; [vm_compute; reflexivity|].
  apply (md2html_writes_transformation sample_markdown (py "in.md")
           (py "out.html") sample_world true minimal_bytes);
    vm_compute; reflexivity.
Defined.

Lemma missing_input_FileNotFoundError_witness :
  files sample_world !! py "absent.md" = None
  /\ md2pdf sample_render (py "absent.md") (py "out.pdf") sample_world
     = (inl FileNotFoundError, sample_world)
  /\ md2html sample_markdown (py "absent.md") (py "out.pdf") sample_world
     = (inl FileNotFoundError, sample_world).
Proof.
  split; [vm_compute; reflexivity|].
  apply (missing_input_FileNotFoundError sample_markdown sample_render).
  vm_compute; reflexivity.
Defined.

Lemma md2html_idempotent_witness :
  exists w1,
    md2html sample_markdown (py "in.md") (py "out.html") sample_world
    = (inr tt, w1)
    /\ files w1 !! py "in.md" = files sample_world !! py "in.md"
    /\ exists w2 b,
        md2html sample_markdown (py "in.md") (py "out.html") w1 = (inr tt, w2)
        /\ file_data w1 (py "out.html") = Some b
        /\ file_data w2 (py "out.html") = Some b.
Proof.
  exists (snd (md2html sample_markdown (py "in.md") (py "out.html")
                 sample_world)).
  split; [vm_compute; reflexivity|]. split; [vm_compute; reflexivity|].
  apply (md2html_idempotent sample_markdown (py "in.md") (py "out.html")
           sample_world); vm_compute; reflexivity.
Defined.

Lemma errors_propagate_unchanged_witness :
  md2html failing_markdown (py "in.md") (py "out.html") sample_world
  = (inl (Raised "ValueError"), sample_world)
  /\ md2pdf sample_render (py "in.md") (py "out") sample_world
     = (inl IsADirectoryError, sample_world).
Proof.
  split.
  - apply (errors_propagate_unchanged failing_markdown sample_render).
    apply (html_transform_fails _ _ _ _ minimal_document);
      vm_compute; reflexivity.
  - apply (errors_propagate_unchanged failing_markdown sample_render).
    apply (pdf_save_fails _ _ _ _ minimal_document sample_world);
      vm_compute; reflexivity.
Defined.

Lemma success_message_witness :
  stdout (snd (md2pdf sample_render (py "in.md") (py "out.pdf") sample_world))
  = py "PDF generated successfully as out.pdf" ++ [10]
  /\ stdout (snd (md2html sample_markdown (py "in.md") (py "out.html")
                    sample_world))
     = [].
Proof.
  destruct (success_message sample_markdown sample_render (py "in.md")
              (py "out.pdf") sample_world) as [Hpdf _].
  destruct (success_message sample_markdown sample_render (py "in.md")
              (py "out.html") sample_world) as [_ Hhtml].
  split.
  - rewrite (Hpdf (snd (md2pdf sample_render (py "in.md") (py "out.pdf")
                          sample_world))); vm_compute; reflexivity.
  - rewrite (Hhtml (inr tt)
               (snd (md2html sample_markdown (py "in.md") (py "out.html")
                       sample_world))); vm_compute; reflexivity.
Defined.

Lemma md2html_minimal_document_witness :
  transforms_minimal_document sample_markdown
  /\ exists w',
      md2html sample_markdown (py "in.md") (py "out.html") sample_world
      = (inr tt, w')
      /\ file_contains_text w' (py "out.html") (py "<h1>Title</h1>")
      /\ file_contains_text w' (py "out.html") (py "<p>Body text.</p>").
Proof.
  assert (Hc : transforms_minimal_document sample_markdown).
  { exists (py "<h1>Title</h1>" ++ [10] ++ py "<p>Body text.</p>").
    split; [vm_compute; reflexivity|]. split; [vm_compute; eauto|]. split.
    - by exists [], ([10] ++ py "<p>Body text.</p>").
    - exists (py "<h1>Title</h1>" ++ [10]), []. vm_compute; reflexivity. }
  split; [exact Hc|].
  apply (md2html_minimal_document sample_markdown (py "in.md")
           (py "out.html") sample_world true minimal_bytes Hc);
    vm_compute; reflexivity.
Defined.

Lemma md2html_failed_transformation_witness :
  failing_markdown (universal_newlines minimal_document)
  = inl (Raised "ValueError")
  /\ md2html failing_markdown (py "in.md") (py "empty.md") sample_world
     = (inl (Raised "ValueError"), sample_world)
  /\ file_data sample_world (py "empty.md") = Some [].
Proof.
  split; [reflexivity|]. split; [|vm_compute; reflexivity].
  apply (md2html_failed_transformation failing_markdown (py "in.md")
           (py "empty.md") sample_world true minimal_bytes minimal_document);
    vm_compute; reflexivity.
Defined.

(** C9 as stated fails when both paths name the same file: the run
    replaces the Markdown source by the conversion result. *)
Lemma input_overwritten_when_paths_coincide :
  file_data sample_world (py "in.md") = Some minimal_bytes
  /\ (exists w1,
        md2html sample_markdown (py "in.md") (py "in.md") sample_world
        = (inr tt, w1)
        /\ file_data w1 (py "in.md")
           = Some (list_byte_of_string "<h1>Title</h1>" ++ [x0a]
                     ++ list_byte_of_string "<p>Body text.</p>")
        /\ files w1 !! py "in.md" <> files sample_world !! py "in.md")
  /\ (exists w2,
        md2pdf sample_render (py "in.md") (py "in.md") sample_world
        = (inr tt, w2)
        /\ file_data w2 (py "in.md")
           = Some (list_byte_of_string "%PDF-" ++ minimal_bytes)
        /\ files w2 !! py "in.md" <> files sample_world !! py "in.md").
Proof.
  split; [vm_compute; reflexivity|]. split.
  - exists (snd (md2html sample_markdown (py "in.md") (py "in.md")
                   sample_world)).
    repeat split; try (vm_compute; reflexivity). vm_compute; discriminate.
  - exists (snd (md2pdf sample_render (py "in.md") (py "in.md")
                   sample_world)).
    repeat split; try (vm_compute; reflexivity). vm_compute; discriminate.
Qed.

Lemma input_file_unchanged_witness :
  py "in.md" <> py "out.html"
  /\ (forall r w',
        md2pdf sample_render (py "in.md") (py "out.html") sample_world
        = (r, w') ->
        files w' !! py "in.md" = files sample_world !! py "in.md")
  /\ (forall r w',
        md2html sample_markdown (py "in.md") (py "out.html") sample_world
        = (r, w') ->
        files w' !! py "in.md" = files sample_world !! py "in.md").
Proof.
  assert (Hne : py "in.md" <> py "out.html") by (vm_compute; discriminate).
  split; [exact Hne|].
  apply (input_file_unchanged sample_markdown sample_render (py "in.md")
           (py "out.html") sample_world Hne).
Defined.

Lemma md2html_empty_input_witness :
  transforms_empty_document sample_markdown
  /\ files sample_world !! py "empty.md" = Some (File true true [])
  /\ exists w',
      md2html sample_markdown (py "empty.md") (py "out.html") sample_world
      = (inr tt, w')
      /\ file_data w' (py "out.html") = Some [].
Proof.
  split; [reflexivity|]. split; [vm_compute; reflexivity|].
  apply (md2html_empty_input sample_markdown (py "empty.md") (py "out.html")
           sample_world true); vm_compute; reflexivity.
Defined.

(** * Further properties of main.py *)

(** ** The codec round trip *)

Lemma all_below_sound k : forall p P,
  all_below k p P = true ->
  forall c, p * 2 ^ N.of_nat k <= c < (p + 1) * 2 ^ N.of_nat k -> P c = true.
Proof.
  induction k as [|k IH]; intros p P H c Hc.
  - simpl in *. assert (c = p) as -> by lia. done.
  - simpl in H. apply andb_prop in H as [H0 H1].
    rewrite Nat2N.inj_succ, N.pow_succ_r' in Hc.
    set (X := 2 ^ N.of_nat k) in *.
    destruct (N.lt_ge_cases c ((2 * p + 1) * X)).
    + apply (IH _ _ H0). fold X. lia.
    + apply (IH _ _ H1). fold X. lia.
Qed.

Lemma cp_roundtrip_bmp : all_below 16 0 cp_roundtrip = true.
Proof. vm_compute. reflexivity. Qed.

Lemma astral_head_all : all_below 15 0 astral_head_ok = true.
Proof. vm_compute. reflexivity. Qed.

Lemma astral_tail_all : all_below 6 0 astral_tail_ok = true.
Proof. vm_compute. reflexivity. Qed.

Lemma split_low6 c :
  N.lor (N.shiftl (N.shiftr c 6) 6) (N.land c 0x3F) = c.
Proof.
  change 0x3F with (N.ones 6). rewrite <- N.ldiff_ones_r.
  apply N.lor_ldiff_and.
Qed.

Lemma encode_cp_decode c b :
  Utf8.encode_cp c = Some b -> Utf8.decode b = Some [c].
Proof.
  destruct (N.lt_ge_cases c 0x10000) as [Hlo|Hhi].
  - intros Hb.
    assert (H : cp_roundtrip c = true)
      by (apply (all_below_sound _ _ _ cp_roundtrip_bmp); simpl; lia).
    unfold cp_roundtrip in H. rewrite Hb in H.
    by apply bool_decide_eq_true in H.
  - unfold Utf8.encode_cp.
    destruct (N.ltb_spec c 0x80); [lia|].
    destruct (N.ltb_spec c 0x800); [lia|].
    destruct (N.ltb_spec c 0x10000); [lia|].
    destruct (N.ltb_spec c 0x110000) as [Hc|]; [|done].
    intros [= <-].
    set (h := N.shiftr c 6). set (l := N.land c 0x3F).
    assert (Hh : 0x400 <= h < 0x4400).
    { unfold h. rewrite N.shiftr_div_pow2. change (2 ^ 6) with 64.
      split; [apply N.div_le_lower_bound
             | apply N.Div0.div_lt_upper_bound]; lia. }
    assert (Hl : l < 64).
    { unfold l. change 0x3F with (N.ones 6). rewrite N.land_ones.
      by apply N.mod_lt. }
    pose proof (all_below_sound _ _ _ astral_head_all h) as Hhead.
    pose proof (all_below_sound _ _ _ astral_tail_all l) as Htail.
    unfold astral_head_ok in Hhead. unfold astral_tail_ok in Htail.
    destruct (N.leb_spec 0x400 h); [|lia].
    destruct (N.ltb_spec h 0x4400); [|lia].
    replace (N.shiftr c 18) with (N.shiftr h 12)
      by (unfold h; by rewrite N.shiftr_shiftr).
    replace (N.shiftr c 12) with (N.shiftr h 6)
      by (unfold h; by rewrite N.shiftr_shiftr).
    fold l.
    set (b0 := Utf8.b8 (N.lor 0xF0 (N.shiftr h 12))) in *.
    set (b1 := Utf8.b8 (N.lor 0x80 (N.land (N.shiftr h 6) 0x3F))) in *.
    set (b2 := Utf8.b8 (N.lor 0x80 (N.land h 0x3F))) in *.
    set (b3 := Utf8.b8 (N.lor 0x80 l)) in *.
    cbn [andb] in Hhead.
    specialize (Hhead ltac:(simpl; lia)). specialize (Htail ltac:(simpl; lia)).
    apply andb_prop in Htail as [Hc3 Hl3%N.eqb_eq].
    apply andb_prop in Hhead as [Hhead Hrec%N.eqb_eq].
    apply andb_prop in Hhead as [Hhead Hc2].
    apply andb_prop in Hhead as [Hhead Hc1].
    apply andb_prop in Hhead as [Hge%N.leb_le Hlt%N.ltb_lt].
    assert (Hc' :
      N.lor (N.shiftl (N.land (Byte.to_N b0) 0x07) 18)
        (N.lor (N.shiftl (Utf8.low6 b1) 12)
           (N.lor (N.shiftl (Utf8.low6 b2) 6) (Utf8.low6 b3))) = c).
    { rewrite Hl3.
      transitivity (N.lor (N.shiftl h 6) l); [|apply split_low6].
      rewrite <- Hrec.
      rewrite !N.shiftl_lor, !N.shiftl_shiftl, !N.lor_assoc. reflexivity. }
    cbn [Utf8.decode].
    destruct (N.ltb_spec (Byte.to_N b0) 0x80); [lia|].
    destruct (N.ltb_spec (Byte.to_N b0) 0xC2); [lia|].
    destruct (N.ltb_spec (Byte.to_N b0) 0xE0); [lia|].
    destruct (N.ltb_spec (Byte.to_N b0) 0xF0); [lia|].
    destruct (N.ltb_spec (Byte.to_N b0) 0xF5); [|lia].
    rewrite Hc', Hc1, Hc2, Hc3. cbn [andb].
    destruct (N.leb_spec 0x10000 c); [|lia].
    destruct (N.ltb_spec c 0x110000); [|lia]. done.
Qed.

Lemma fmap_cons_Some (c : N) (o : option str) t :
  cons c <$> o = Some t -> exists t', o = Some t' /\ t = c :: t'.
Proof. destruct o as [t'|]; [|done]. intros [= <-]. by exists t'. Qed.

Lemma utf8_decode_app_len n : forall b t rest,
  (length b <= n)%nat ->
  Utf8.decode b = Some t ->
  Utf8.decode (b ++ rest) = app t <$> Utf8.decode rest.
Proof.
  induction n as [|n IH]; intros b t rest Hlen.
  { destruct b; [|simpl in Hlen; lia]. intros [= <-]; simpl.
    by destruct (Utf8.decode rest). }
  destruct b as [|b0 r0].
  { intros [= <-]; simpl. by destruct (Utf8.decode rest). }
  cbn [app Utf8.decode]. simpl in Hlen.
  destruct (Byte.to_N b0 <? 0x80).
  { intros (t' & Hd & ->)%fmap_cons_Some.
    rewrite (IH r0 t' rest ltac:(lia) Hd). by destruct (Utf8.decode rest). }
  destruct (Byte.to_N b0 <? 0xC2); [done|].
  destruct (Byte.to_N b0 <? 0xE0).
  { destruct r0 as [|b1 r1]; [done|]. cbn [app]. simpl in Hlen.
    destruct (Utf8.is_cont b1); [|done].
    intros (t' & Hd & ->)%fmap_cons_Some.
    rewrite (IH r1 t' rest ltac:(lia) Hd). by destruct (Utf8.decode rest). }
  destruct (Byte.to_N b0 <? 0xF0).
  { destruct r0 as [|b1 [|b2 r2]]; [done..|]. cbn [app]. simpl in Hlen.
    match goal with |- context [if ?c then _ else _] => destruct c end;
      [|done].
    intros (t' & Hd & ->)%fmap_cons_Some.
    rewrite (IH r2 t' rest ltac:(lia) Hd). by destruct (Utf8.decode rest). }
  destruct (Byte.to_N b0 <? 0xF5); [|done].
  destruct r0 as [|b1 [|b2 [|b3 r3]]]; [done..|]. cbn [app]. simpl in Hlen.
  match goal with |- context [if ?c then _ else _] => destruct c end;
    [|done].
  intros (t' & Hd & ->)%fmap_cons_Some.
  rewrite (IH r3 t' rest ltac:(lia) Hd). by destruct (Utf8.decode rest).
Qed.

Lemma utf8_decode_app b t rest :
  Utf8.decode b = Some t ->
  Utf8.decode (b ++ rest) = app t <$> Utf8.decode rest.
Proof. by apply (utf8_decode_app_len (length b)). Qed.

(** Whatever [encode] produces, [decode] reads back. *)
Lemma utf8_decode_encode t b :
  Utf8.encode t = Some b -> Utf8.decode b = Some t.
Proof.
  revert b. induction t as [|c t IH]; intros b; simpl.
  - by intros [= <-].
  - destruct (Utf8.encode_cp c) as [bc|] eqn:Hc; [|done].
    destruct (Utf8.encode t) as [bt|]; [|done].
    intros [= <-].
    rewrite (utf8_decode_app _ _ _ (encode_cp_decode _ _ Hc)).
    by rewrite (IH bt).
Qed.

(** ** Line ends *)

Lemma universal_newlines_no_cr_len n : forall t,
  (length t <= n)%nat -> 13 ∉ universal_newlines t.
Proof.
  induction n as [|n IH]; intros [|c t] Hlen; simpl in *;
    try apply not_elem_of_nil; [lia|].
  destruct (N.eqb_spec c 13) as [->|Hc].
  - apply not_elem_of_cons. split; [done|].
    destruct t as [|c' t']; [apply not_elem_of_nil|]. simpl in Hlen.
    destruct (c' =? 10); apply IH; simpl; lia.
  - apply not_elem_of_cons. split; [done|]. apply IH. lia.
Qed.

Lemma universal_newlines_no_cr t : 13 ∉ universal_newlines t.
Proof. by apply (universal_newlines_no_cr_len (length t)). Qed.

Lemma universal_newlines_crlf t :
  13 ∉ t -> universal_newlines (to_crlf t) = t.
Proof.
  induction t as [|c t IH]; [done|].
  intros [Hc Ht]%not_elem_of_cons. unfold to_crlf in *. cbn [mbind list_bind].
  destruct (N.eqb_spec c 10) as [->|Hc10]; cbn [app universal_newlines].
  - cbn. by rewrite (IH Ht).
  - destruct (N.eqb_spec c 13); [done|]. by rewrite (IH Ht).
Qed.

(** ** The built-ins at the edges *)

Lemma read_text_no_cr p w t w' : read_text p w = (inr t, w') -> 13 ∉ t.
Proof.
  intros (?&?& t0 &_&_& -> &_)%read_text_inr_inv.
  apply universal_newlines_no_cr.
Qed.

Lemma read_text_undecodable p w wr raw :
  files w !! p = Some (File true wr raw) ->
  Utf8.decode raw = None ->
  read_text p w = (inl UnicodeDecodeError, w).
Proof.
  intros Hf Hd. unfold read_text, bind, open_read. by rewrite Hf, Hd.
Qed.



Lemma open_write_error_raised p w e :
  open_write_error w p = Some e -> open_write p w = (inl e, w).
Proof.
  unfold open_write_error, open_write.
  destruct (files w !! p) as [[|rd wr raw]|].
  - by intros [= <-].
  - destruct wr; [done|]. by intros [= <-].
  - by intros ->.
Qed.

Lemma write_text_error_raised p t w e :
  open_write_error w p = Some e -> write_text p t w = (inl e, w).
Proof.
  intros He. unfold write_text, bind.
  by rewrite (open_write_error_raised _ _ _ He).
Qed.




(** ** The operations beyond the specification *)

Section ConverterEdges.

Variable markdown : str -> exn + str.
Variable render_pdf : list pdf_section -> exn + bytes.

Lemma md2html_inl_inv md_file output_file e w w' :
  md2html markdown md_file output_file w = (inl e, w') ->
  w' = w \/ (e = UnicodeEncodeError /\ w' = store output_file [] w).
Proof.
  rewrite md2html_unfold.
  destruct (read_text md_file w) as [[e1|t] w1] eqn:Hr;
    apply read_text_world in Hr as ->.
  { intros [= _ <-]. by left. }
  destruct (markdown t) as [e1|h].
  { intros [= _ <-]. by left. }
  intros [[-> _]|(-> & _ & _ & ->)]%write_text_inl_inv; [by left|by right].
Qed.

Lemma md2html_stdout md_file output_file r w w' :
  md2html markdown md_file output_file w = (r, w') -> stdout w' = stdout w.
Proof.
  destruct r as [e|u].
  - by intros [->|[_ ->]]%md2html_inl_inv.
  - by intros (?&?&?&?& b &_&_&_&_&_& ->)%md2html_inr_inv.
Qed.

Lemma md2pdf_inl_inv md_file output_file e w w' :
  md2pdf render_pdf md_file output_file w = (inl e, w') -> w' = w.
Proof.
  rewrite md2pdf_unfold.
  destruct (read_text md_file w) as [[e1|t] w1] eqn:Hr;
    apply read_text_world in Hr as ->.
  { by intros [= _ <-]. }
  destruct (save render_pdf _ output_file w) as [[e1|[]] w2] eqn:Hs; [|done].
  apply save_inl_inv in Hs as ->. by intros [= _ <-].
Qed.

(** X1: executing the script prints nothing and leaves every path but
    [Snowflake_Backup_Recovery_Options.html] as it was, whatever the
    outcome; no PDF is produced.  Under any other [__name__] than
    ["__main__"] (an import) it does nothing at all. *)
Theorem script_only_writes_html name w r w' :
  run_module markdown name w = (r, w') ->
  stdout w' = stdout w
  /\ (forall q,
        q <> py "Snowflake_Backup_Recovery_Options.html" ->
        files w' !! q = files w !! q)
  /\ (name <> py "__main__" -> r = inr tt /\ w' = w).
Proof.
  unfold run_module, main. destruct (decide (name = py "__main__")) as [->|Hn].
  - intros Hrun. split; [by apply (md2html_stdout _ _ _ _ _ Hrun)|].
    split; [|done]. intros q Hq.
    by apply (md2html_frame _ _ _ _ _ _ _ Hrun).
  - intros [= <- <-]. by repeat split.
Qed.

(** X2: an input file that is not valid UTF-8 makes both operations raise
    [UnicodeDecodeError]; neither library is consulted and nothing is
    written or printed. *)
Theorem invalid_utf8_input md_file output_file w wr raw :
  files w !! md_file = Some (File true wr raw) ->
  Utf8.decode raw = None ->
  md2pdf render_pdf md_file output_file w = (inl UnicodeDecodeError, w)
  /\ md2html markdown md_file output_file w = (inl UnicodeDecodeError, w).
Proof.
  intros Hf Hd. split.
  - by rewrite md2pdf_unfold, (read_text_undecodable _ _ _ _ Hf Hd).
  - by rewrite md2html_unfold, (read_text_undecodable _ _ _ _ Hf Hd).
Qed.


(** X4: when the input was read and transformed but the output path
    cannot be opened for writing (a directory, a read-only file, a path
    that cannot be created), [md2html] raises the error of that [open]
    and changes nothing: no file and no directory is created. *)
Theorem md2html_unwritable_output md_file output_file w wr raw t h e :
  files w !! md_file = Some (File true wr raw) ->
  Utf8.decode raw = Some t ->
  markdown (universal_newlines t) = inr h ->
  open_write_error w output_file = Some e ->
  md2html markdown md_file output_file w = (inl e, w).
Proof.
  intros Hf Hd Hm He.
  rewrite md2html_unfold, (read_text_ok _ _ _ _ _ Hf Hd), Hm.
  by apply write_text_error_raised.
Qed.


(** X6: [md2pdf] prints its confirmation only after the PDF has been
    saved: when it fails, nothing has been printed. *)
Theorem md2pdf_prints_only_on_success md_file output_file w e w' :
  md2pdf render_pdf md_file output_file w = (inl e, w') ->
  stdout w' = stdout w.
Proof. by intros ->%md2pdf_inl_inv. Qed.

(** X7: whatever the outcome, neither operation touches a path other
    than [output_file]: every other file and directory is as before, and
    so is what can be created. *)
Theorem only_output_file_changes md_file output_file q w :
  q <> output_file ->
  (forall r w',
      md2pdf render_pdf md_file output_file w = (r, w') ->
      files w' !! q = files w !! q /\ create_err w' = create_err w)
  /\ (forall r w',
        md2html markdown md_file output_file w = (r, w') ->
        files w' !! q = files w !! q /\ create_err w' = create_err w).
Proof.
  intros Hq. split; intros r w' Hrun.
  - split; [by apply (md2pdf_frame _ _ _ _ _ _ _ Hrun)|].
    destruct r as [e|u].
    + by apply md2pdf_inl_inv in Hrun as ->.
    + by apply md2pdf_inr_inv in Hrun as (?&?&?& b &_&_&_&_& ->).
  - split; [by apply (md2html_frame _ _ _ _ _ _ _ Hrun)|].
    destruct r as [e|u].
    + by apply md2html_inl_inv in Hrun as [->|[_ ->]].
    + by apply md2html_inr_inv in Hrun as (?&?&?&?& b &_&_&_&_&_& ->).
Qed.


(** X9: a source saved with Windows line ends converts like the same
    text with plain line feeds: the HTML written is the transformation of
    the text whose ["\r\n"] have been read as ["\n"]. *)
Theorem md2html_crlf_input md_file output_file w wr raw t w' :
  files w !! md_file = Some (File true wr raw) ->
  Utf8.decode raw = Some (to_crlf t) ->
  13 ∉ t ->
  md2html markdown md_file output_file w = (inr tt, w') ->
  exists h b,
    markdown t = inr h
    /\ Utf8.encode h = Some b
    /\ file_data w' output_file = Some b.
Proof.
  intros Hf Hd Ht
    (wr' & raw' & t' & h & b & Hf' & Hd' & Hm & He & _ & ->)%md2html_inr_inv.
  rewrite Hf in Hf'. injection Hf' as <- <-.
  rewrite Hd in Hd'. injection Hd' as <-.
  rewrite (universal_newlines_crlf _ Ht) in Hm.
  exists h, b. by rewrite file_data_store.
Qed.

(** X12: the file a successful [md2html] leaves behind is valid UTF-8:
    read back with the strict decoder it is exactly the HTML the
    transformation returned. *)
Theorem md2html_output_is_valid_utf8 md_file output_file w w' :
  md2html markdown md_file output_file w = (inr tt, w') ->
  exists t h b,
    read_text md_file w = (inr t, w)
    /\ markdown t = inr h
    /\ file_data w' output_file = Some b
    /\ Utf8.decode b = Some h.
Proof.
  intros (wr & raw & t & h & b & Hf & Hd & Hm & He & _ & ->)%md2html_inr_inv.
  exists (universal_newlines t), h, b.
  rewrite (read_text_ok _ _ _ _ _ Hf Hd), file_data_store.
  repeat split; try done. by apply utf8_decode_encode.
Qed.


End ConverterEdges.

(** X10: [md2html] hands the transformation only text without a carriage
    return: two transformations that agree on such text give the same
    run. *)
Theorem transformer_sees_no_carriage_return
    (markdown1 markdown2 : str -> exn + str) md_file output_file w :
  (forall t, 13 ∉ t -> markdown1 t = markdown2 t) ->
  md2html markdown1 md_file output_file w
  = md2html markdown2 md_file output_file w.
Proof.
  intros Hagree. rewrite !md2html_unfold.
  destruct (read_text md_file w) as [[e|t] w1] eqn:Hr; [done|].
  by rewrite (Hagree t (read_text_no_cr _ _ _ _ Hr)).
Qed.

(** X11: [md2pdf] hands the renderer only documents of exactly one
    section, whose text has no carriage return: two renderers that agree
    on those give the same run. *)
Theorem renderer_sees_one_section
    (render1 render2 : list pdf_section -> exn + bytes)
    md_file output_file w :
  (forall t, 13 ∉ t -> render1 [Section_ t] = render2 [Section_ t]) ->
  md2pdf render1 md_file output_file w = md2pdf render2 md_file output_file w.
Proof.
  intros Hagree. rewrite !md2pdf_unfold.
  destruct (read_text md_file w) as [[e|t] w1] eqn:Hr; [done|].
  rewrite !save_unfold; simpl.
  by rewrite (Hagree t (read_text_no_cr _ _ _ _ Hr)).
Qed.

(** ** The further properties at work on the sample disks *)

Lemma script_only_writes_html_witness :
  exists w',
    run_module sample_markdown (py "__main__") edge_world = (inr tt, w')
    /\ stdout w' = []
    /\ files w' !! py "Snowflake_Backup_Recovery_Options.pdf" = None
    /\ file_data w' (py "Snowflake_Backup_Recovery_Options.md")
       = Some crlf_bytes.
Proof.
  exists (snd (run_module sample_markdown (py "__main__") edge_world)).
  split; [vm_compute; reflexivity|].
  destruct (script_only_writes_html sample_markdown (py "__main__")
              edge_world (inr tt)
              (snd (run_module sample_markdown (py "__main__") edge_world)))
    as (Hout & Hframe & _); [vm_compute; reflexivity|].
  split; [by rewrite Hout|]. split.
  - rewrite Hframe; [vm_compute; reflexivity | vm_compute; discriminate].
  - unfold file_data.
    rewrite Hframe; [vm_compute; reflexivity | vm_compute; discriminate].
Defined.

Lemma invalid_utf8_input_witness :
  files edge_world !! py "bad.md" = Some (File true true [xff; xfe])
  /\ Utf8.decode [xff; xfe] = None
  /\ md2pdf sample_render (py "bad.md") (py "out.pdf") edge_world
     = (inl UnicodeDecodeError, edge_world)
  /\ md2html sample_markdown (py "bad.md") (py "out.html") edge_world
     = (inl UnicodeDecodeError, edge_world).
Proof.
  split; [vm_compute; reflexivity|]. split; [reflexivity|].
  split.
  - apply (invalid_utf8_input sample_markdown sample_render (py "bad.md")
             (py "out.pdf") edge_world true [xff; xfe]);
      vm_compute; reflexivity.
  - apply (invalid_utf8_input sample_markdown sample_render (py "bad.md")
             (py "out.html") edge_world true [xff; xfe]);
      vm_compute; reflexivity.
Defined.


Lemma md2html_unwritable_output_witness :
  open_write_error edge_world (py "dir") = Some IsADirectoryError
  /\ open_write_error edge_world (py "readonly.html") = Some PermissionError
  /\ open_write_error edge_world (py "missing/out.html")
     = Some FileNotFoundError
  /\ md2html sample_markdown (py "win.md") (py "dir") edge_world
     = (inl IsADirectoryError, edge_world)
  /\ md2html sample_markdown (py "win.md") (py "readonly.html") edge_world
     = (inl PermissionError, edge_world)
  /\ md2html sample_markdown (py "win.md") (py "missing/out.html") edge_world
     = (inl FileNotFoundError, edge_world).
Proof.
  split; [vm_compute; reflexivity|]. split; [vm_compute; reflexivity|].
  split; [vm_compute; reflexivity|]. split; [|split].
  - apply (md2html_unwritable_output sample_markdown (py "win.md") (py "dir")
             edge_world true crlf_bytes (to_crlf minimal_document)
             (py "<h1>Title</h1>" ++ [10] ++ py "<p>Body text.</p>"));
      vm_compute; reflexivity.
  - apply (md2html_unwritable_output sample_markdown (py "win.md")
             (py "readonly.html") edge_world true crlf_bytes
             (to_crlf minimal_document)
             (py "<h1>Title</h1>" ++ [10] ++ py "<p>Body text.</p>"));
      vm_compute; reflexivity.
  - apply (md2html_unwritable_output sample_markdown (py "win.md")
             (py "missing/out.html") edge_world true crlf_bytes
             (to_crlf minimal_document)
             (py "<h1>Title</h1>" ++ [10] ++ py "<p>Body text.</p>"));
      vm_compute; reflexivity.
Defined.


Lemma md2pdf_prints_only_on_success_witness :
  exists w',
    md2pdf sample_render (py "in.md") (py "out") sample_world
    = (inl IsADirectoryError, w')
    /\ stdout w' = stdout sample_world.
Proof.
  exists (snd (md2pdf sample_render (py "in.md") (py "out") sample_world)).
  split; [vm_compute; reflexivity|].
  apply (md2pdf_prints_only_on_success sample_render (py "in.md") (py "out")
           sample_world IsADirectoryError).
  vm_compute; reflexivity.
Defined.

Lemma only_output_file_changes_witness :
  py "empty.md" <> py "out.html"
  /\ (forall r w',
        md2pdf sample_render (py "in.md") (py "out.html") sample_world
        = (r, w') ->
        files w' !! py "empty.md" = files sample_world !! py "empty.md"
        /\ create_err w' = create_err sample_world)
  /\ (forall r w',
        md2html sample_markdown (py "in.md") (py "out.html") sample_world
        = (r, w') ->
        files w' !! py "empty.md" = files sample_world !! py "empty.md"
        /\ create_err w' = create_err sample_world).
Proof.
  assert (Hne : py "empty.md" <> py "out.html") by (vm_compute; discriminate).
  split; [exact Hne|].
  apply (only_output_file_changes sample_markdown sample_render (py "in.md")
           (py "out.html") (py "empty.md") sample_world Hne).
Defined.


Lemma md2html_crlf_input_witness :
  files edge_world !! py "win.md" = Some (File true true crlf_bytes)
  /\ Utf8.decode crlf_bytes = Some (to_crlf minimal_document)
  /\ (13 ∉ minimal_document)
  /\ exists w' h b,
      md2html sample_markdown (py "win.md") (py "out.html") edge_world
      = (inr tt, w')
      /\ sample_markdown minimal_document = inr h
      /\ Utf8.encode h = Some b
      /\ file_data w' (py "out.html") = Some b.
Proof.
  assert (Hcr : 13 ∉ minimal_document).
  { apply (bool_decide_unpack _). vm_compute. exact I. }
  split; [vm_compute; reflexivity|]. split; [vm_compute; reflexivity|].
  split; [exact Hcr|].
  exists (snd (md2html sample_markdown (py "win.md") (py "out.html")
                 edge_world)).
  destruct (md2html_crlf_input sample_markdown (py "win.md") (py "out.html")
              edge_world true crlf_bytes minimal_document
              (snd (md2html sample_markdown (py "win.md") (py "out.html")
                      edge_world)))
    as (h & b & Hm & He & Hd); try (vm_compute; reflexivity); [exact Hcr|].
  exists h, b. split; [vm_compute; reflexivity|]. by repeat split.
Defined.

Lemma transformer_sees_no_carriage_return_witness :
  (forall t, 13 ∉ t -> sample_markdown t = cr_averse_markdown t)
  /\ cr_averse_markdown (to_crlf minimal_document)
     = inl (Raised "ValueError")
  /\ md2html sample_markdown (py "win.md") (py "out.html") edge_world
     = md2html cr_averse_markdown (py "win.md") (py "out.html") edge_world.
Proof.
  assert (Hagree : forall t, 13 ∉ t -> sample_markdown t = cr_averse_markdown t).
  { intros t Ht. unfold cr_averse_markdown.
    by destruct (decide (13 ∈ t)). }
  split; [exact Hagree|]. split; [vm_compute; reflexivity|].
  apply (transformer_sees_no_carriage_return sample_markdown
           cr_averse_markdown (py "win.md") (py "out.html") edge_world Hagree).
Defined.

Lemma renderer_sees_one_section_witness :
  (forall t, 13 ∉ t ->
             sample_render [Section_ t] = one_section_render [Section_ t])
  /\ one_section_render [] = inl (Raised "ValueError")
  /\ md2pdf sample_render (py "win.md") (py "out.pdf") edge_world
     = md2pdf one_section_render (py "win.md") (py "out.pdf") edge_world.
Proof.
  assert (Hagree : forall t, 13 ∉ t ->
            sample_render [Section_ t] = one_section_render [Section_ t]).
  { intros t Ht. unfold one_section_render; simpl.
    by destruct (decide (13 ∈ t)). }
  split; [exact Hagree|]. split; [reflexivity|].
  apply (renderer_sees_one_section sample_render one_section_render
           (py "win.md") (py "out.pdf") edge_world Hagree).
Defined.

Lemma md2html_output_is_valid_utf8_witness :
  exists w' t h b,
    md2html sample_markdown (py "in.md") (py "out.html") sample_world
    = (inr tt, w')
    /\ read_text (py "in.md") sample_world = (inr t, sample_world)
    /\ sample_markdown t = inr h
    /\ file_data w' (py "out.html") = Some b
    /\ Utf8.decode b = Some h.
Proof.
  exists (snd (md2html sample_markdown (py "in.md") (py "out.html")
                 sample_world)).
  destruct (md2html_output_is_valid_utf8 sample_markdown (py "in.md")
              (py "out.html") sample_world
              (snd (md2html sample_markdown (py "in.md") (py "out.html")
                      sample_world)))
    as (t & h & b & H); [vm_compute; reflexivity|].
  exists t, h, b. split; [vm_compute; reflexivity|]. exact H.
Defined.

